(** * Hospital Management API: the [/stats] endpoint ([live_stats])

    A shallow embedding of [live_stats] from [main.py] and of the Python
    operations it relies on:

    - Python [int] is [Z]; [//] with a positive divisor is [Z.div] (floor);
    - [int / int] (true division), [float * int] and [round(float)] are
      modelled on IEEE 754 binary64 with [SpecFloat] (no real numbers, no
      primitive floats), so that every run evaluates;
    - exceptions are an error monad; [try ... except Exception as e] is
      [try_except];
    - the response [dict] is an association list in insertion order;
    - the global handle [db] (module [database]) and the clock read
      [datetime.utcnow().date().isoformat()] are inputs of the function. *)

From Stdlib Require Import ZArith Bool List String Lia.
From Stdlib Require Import Floats.SpecFloat.
Import ListNotations.
Local Open Scope string_scope.
Local Open Scope Z_scope.

(* ===================================================================== *)
(** * Python values, exceptions and the error monad                      *)
(* ===================================================================== *)

(** An instance of Python's [Exception] (what [except Exception] catches):
    its class name and the text [str(e)] gives. *)
Record PyException : Type := mkExc {
  exc_class : string;
  exc_str   : string
}.

(** Outcome of evaluating a Python expression: a value, or a raised
    exception. *)
Inductive result (A : Type) : Type :=
| Ok    (a : A)
| Raise (e : PyException).
Arguments Ok {A} a.
Arguments Raise {A} e.

Definition bind {A B : Type} (c : result A) (k : A -> result B) : result B :=
  match c with
  | Ok a    => k a
  | Raise e => Raise e
  end.

Notation "x <- c ;; k" := (bind c (fun x => k))
  (at level 61, c at next level, right associativity).

(** [try: body  except Exception as e: handler e] *)
Definition try_except {A : Type} (body : result A)
    (handler : PyException -> result A) : result A :=
  match body with
  | Ok a    => Ok a
  | Raise e => handler e
  end.

(** The values that occur in the dictionaries of this endpoint. *)
Inductive pyval : Type :=
| PyInt  (n : Z)
| PyStr  (s : string)
| PyBool (b : bool).

(** A [dict] with string keys, in insertion order. *)
Definition pydict : Type := list (string * pyval).

Fixpoint dict_get (k : string) (d : pydict) : option pyval :=
  match d with
  | [] => None
  | (k', v) :: d' => if String.eqb k k' then Some v else dict_get k d'
  end.

Definition dict_int (k : string) (d : pydict) : option Z :=
  match dict_get k d with
  | Some (PyInt n) => Some n
  | _ => None
  end.

Definition dict_str (k : string) (d : pydict) : option string :=
  match dict_get k d with
  | Some (PyStr s) => Some s
  | _ => None
  end.

(* ===================================================================== *)
(** * Python floats (binary64)                                           *)
(* ===================================================================== *)

Module PyFloat.

Definition prec : Z := 53.
Definition emax : Z := 1024.

(** An integer as an exact (unrounded) binary number [m * 2^0]. *)
Definition exact_int (z : Z) : spec_float :=
  match z with
  | Z0     => S754_zero false
  | Zpos p => S754_finite false p 0
  | Zneg p => S754_finite true p 0
  end.

(** [float(z)]: the integer rounded to the nearest binary64. *)
Definition of_int (z : Z) : spec_float :=
  binary_normalize prec emax z 0 false.

(** [a / b] on two [int]s: the correctly rounded quotient;
    [ZeroDivisionError] on a zero divisor, [OverflowError] when the
    quotient is too large for a float. *)
Definition int_truediv (a b : Z) : result spec_float :=
  if b =? 0 then Raise (mkExc "ZeroDivisionError" "division by zero")
  else
    match SFdiv prec emax (exact_int a) (exact_int b) with
    | S754_infinity _ =>
        Raise (mkExc "OverflowError"
                     "integer division result too large for a float")
    | q => Ok q
    end.

(** [x * n] for a float [x] and an [int] [n] that a float holds
    exactly. *)
Definition mul_int (x : spec_float) (n : Z) : spec_float :=
  SFmul prec emax x (of_int n).

(** Nearest integer to [m * 2^e], ties to the even one. *)
Definition nearest_even (m : positive) (e : Z) : Z :=
  match e with
  | Zneg p =>
      let d := Z.pow_pos 2 p in
      let q := Zpos m / d in
      let r := Zpos m mod d in
      match 2 * r ?= d with
      | Lt => q
      | Gt => q + 1
      | Eq => if Z.even q then q else q + 1
      end
  | _ => Zpos m * 2 ^ e
  end.

(** [round(x)] with one argument: an [int], half to even. *)
Definition round (x : spec_float) : result Z :=
  match x with
  | S754_zero _ => Ok 0
  | S754_finite s m e => Ok (cond_Zopp s (nearest_even m e))
  | S754_infinity _ =>
      Raise (mkExc "OverflowError" "cannot convert float infinity to integer")
  | S754_nan =>
      Raise (mkExc "ValueError" "cannot convert float NaN to integer")
  end.

End PyFloat.

(** [x or y] on [int]s: [x] when it is truthy (non-zero), else [y]. *)
Definition int_or (x y : Z) : Z := if x =? 0 then y else x.

(* ===================================================================== *)
(** * The store                                                          *)
(* ===================================================================== *)

(** A database handle as [live_stats] uses it. Module [database] fixes
    what the handle is, so both operations are fields:
    - [db_bool]: the truth test [if db] (it may raise: a handle class is
      free to refuse [bool()]);
    - [count_documents coll filter]: [db[coll].count_documents(filter)]. *)
Record Database : Type := mkDatabase {
  db_bool         : result bool;
  count_documents : string -> pydict -> result Z
}.

(** [db[coll].count_documents(filter) if db else 0], for the global [db],
    which is [None] (falsy) until the store is initialised. *)
Definition count_or_zero (db : option Database) (coll : string)
    (filter : pydict) : result Z :=
  match db with
  | None   => Ok 0
  | Some h =>
      b <- db_bool h ;;
      if b then count_documents h coll filter else Ok 0
  end.

(** Line 111: the on-duty doctors query. *)
Definition query_doctors (db : option Database) : result Z :=
  count_or_zero db "doctor" [("on_duty", PyBool true)].

(** Line 118: the query of today's appointments. *)
Definition query_appointments (db : option Database) (today : string)
    : result Z :=
  count_or_zero db "appointment" [("date", PyStr today)].

(* ===================================================================== *)
(** * [live_stats]                                                       *)
(* ===================================================================== *)

Definition total_beds : Z := 250.

(** Line 113. *)
Definition occupied_beds (doctors_count : Z) : Z :=
  Z.min total_beds (150 + (doctors_count / 2) * 3).

(** Line 114, as a function of the variable [occupied_beds]. *)
Definition bed_pct (occupied : Z) : result Z :=
  q <- PyFloat.int_truediv occupied total_beds ;;
  PyFloat.round (PyFloat.mul_int q 100).

(** Line 119. *)
Definition wait_min (doctors_count todays_appts : Z) : Z :=
  Z.max 5 (Z.min 45 (10 + todays_appts / 3 - doctors_count / 5)).

(** Line 122: the sum, then the clamp around it. *)
Definition activity_sum (doctors_count todays_appts : Z) : Z :=
  60 + doctors_count * 2 - todays_appts / 4.

Definition activity (doctors_count todays_appts : Z) : Z :=
  Z.max 40 (Z.min 95 (activity_sum doctors_count todays_appts)).

(** Line 127. *)
Definition doctors_shown (doctors_count : Z) : Z :=
  Z.max 12 (int_or doctors_count 24).

(** The dictionary literal of lines 124-129. *)
Definition snapshot (wait beds doctors act : Z) : pydict :=
  [("wait", PyInt wait); ("beds", PyInt beds);
   ("doctors", PyInt doctors); ("activity", PyInt act)].

(** The dictionary literal of line 132. *)
Definition fallback (note : string) : pydict :=
  [("wait", PyInt 15); ("beds", PyInt 82);
   ("doctors", PyInt 24); ("activity", PyInt 70); ("note", PyStr note)].

(** The [try] block, lines 111-129, statement by statement. *)
Definition live_stats_try (db : option Database) (today : string)
    : result pydict :=
  doctors_count <- query_doctors db ;;
  beds <- bed_pct (occupied_beds doctors_count) ;;
  todays_appts <- query_appointments db today ;;
  Ok (snapshot (wait_min doctors_count todays_appts)
               beds
               (doctors_shown doctors_count)
               (activity doctors_count todays_appts)).

(** [live_stats()], with the handle and today's ISO date as inputs. *)
Definition live_stats (db : option Database) (today : string)
    : result pydict :=
  try_except (live_stats_try db today)
             (fun e => Ok (fallback (exc_str e))).

(* ===================================================================== *)
(** * In-memory stores                                                   *)
(* ===================================================================== *)

(** A store holding [d] on-duty doctors and [a] appointments today. *)
Definition counting_db (d a : Z) : Database :=
  mkDatabase (Ok true)
    (fun coll _ => if String.eqb coll "doctor" then Ok d else Ok a).

(** A store whose every query raises [e]. *)
Definition failing_db (e : PyException) : Database :=
  mkDatabase (Ok true) (fun _ _ => Raise e).

(** A store that answers the doctors query and fails the next one. *)
Definition half_failing_db (d : Z) (e : PyException) : Database :=
  mkDatabase (Ok true)
    (fun coll _ => if String.eqb coll "doctor" then Ok d else Raise e).

(** A handle whose class refuses the truth test. *)
Definition untestable_db (e : PyException) : Database :=
  mkDatabase (Raise e) (fun _ _ => Ok 0).


(* ===================================================================== *)
(** * The reference algorithm, as the specification words it             *)
(* ===================================================================== *)

Module Reference.

(** [clamp(x, low, high)] *)
Definition clamp (x low high : Z) : Z :=
  if x <? low then low else if high <? x then high else x.

(** The integer nearest to the exact ratio [n / d] (with [0 < d]),
    a tie going to the even neighbour. *)
Definition round_half_even (n d : Z) : Z :=
  let q := n / d in
  let r := n mod d in
  match 2 * r ?= d with
  | Lt => q
  | Gt => q + 1
  | Eq => if Z.even q then q else q + 1
  end.

(** The same, a tie going up. *)
Definition round_half_up (n d : Z) : Z := (2 * n + d) / (2 * d).

Definition totalBeds : Z := 250.

Definition occupiedBeds (D : Z) : Z := Z.min totalBeds (150 + (D / 2) * 3).

(** [round(occupiedBeds / totalBeds * 100)] over the exact ratio. *)
Definition bedOccupancyPercent (D : Z) : Z :=
  round_half_even (occupiedBeds D * 100) totalBeds.

Definition waitMinutes (D A : Z) : Z := clamp (10 + A / 3 - D / 5) 5 45.

Definition activityScore (D A : Z) : Z := clamp (60 + D * 2 - A / 4) 40 95.

(** [max(12, D if D != 0 else 24)] *)
Definition doctorsOnDuty (D : Z) : Z :=
  Z.max 12 (if negb (D =? 0) then D else 24).

End Reference.

(* ===================================================================== *)
(** * Predicates on responses                                            *)
(* ===================================================================== *)

Definition in_range (lo hi x : Z) : bool := (lo <=? x) && (x <=? hi).

(** All four fields present, integers, and within the clamp ranges
    (a [note] may or may not be there). *)
Definition well_formed (d : pydict) : bool :=
  match dict_int "wait" d, dict_int "beds" d,
        dict_int "doctors" d, dict_int "activity" d with
  | Some w, Some b, Some n, Some a =>
      in_range 5 45 w && in_range 0 100 b && (12 <=? n) && in_range 40 95 a
  | _, _, _, _ => false
  end.

(** The two count queries of a request succeed, giving [D] and [A]. *)
Definition store_counts (db : option Database) (today : string)
    (D A : Z) : Prop :=
  query_doctors db = Ok D /\ query_appointments db today = Ok A.

(** One of the two count queries raises [e] (the second one after the
    first returned a count). *)
Definition store_raises (db : option Database) (today : string)
    (e : PyException) : Prop :=
  query_doctors db = Raise e \/
  (exists D, 0 <= D /\ query_doctors db = Ok D /\
             query_appointments db today = Raise e).

(** Whatever count the store returns is non-negative. *)
Definition counts_nonneg (db : option Database) (today : string) : Prop :=
  (forall D, query_doctors db = Ok D -> 0 <= D) /\
  (forall A, query_appointments db today = Ok A -> 0 <= A).

(** What line 114 is checked against, for one value of [occupied_beds]. *)
Definition bed_pct_agrees (o : Z) : bool :=
  match bed_pct o with
  | Ok p =>
      (p =? Reference.round_half_even (o * 100) Reference.totalBeds)
      && (p =? Reference.round_half_up (o * 100) Reference.totalBeds)
      && in_range 60 100 p
  | Raise _ => false
  end.

(** The integers [lo, lo+1, ..., lo+n-1]. *)
Definition Zrange (lo : Z) (n : nat) : list Z :=
  map (fun i => lo + Z.of_nat i) (seq 0 n).

(* ===================================================================== *)
(** * Helper lemmas                                                      *)
(* ===================================================================== *)

Lemma Zrange_forallb (P : Z -> bool) (lo : Z) (n : nat) :
  forallb P (Zrange lo n) = true ->
  forall z, lo <= z < lo + Z.of_nat n -> P z = true.
Proof.
  intros Hall z Hz.
  rewrite forallb_forall in Hall.
  apply Hall. unfold Zrange.
  apply in_map_iff. exists (Z.to_nat (z - lo)). split.
  - rewrite Z2Nat.id; lia.
  - apply in_seq. lia.
Qed.

Lemma occupied_beds_range (D : Z) :
  0 <= D -> 150 <= occupied_beds D <= 250.
Proof.
  intros HD. unfold occupied_beds, total_beds.
  assert (0 <= D / 2) by (apply Z.div_pos; lia).
  lia.
Qed.

(** On every bed count from 150 to 250 the float computation of line 114
    returns the nearest integer of the exact percentage, and no tie
    occurs. *)
Lemma bed_pct_agrees_on_range (o : Z) :
  150 <= o <= 250 -> bed_pct_agrees o = true.
Proof.
  intros Ho.
  apply (Zrange_forallb bed_pct_agrees 150 101); [vm_compute; reflexivity | lia].
Qed.

Lemma bed_pct_spec (o : Z) :
  150 <= o <= 250 ->
  exists p, bed_pct o = Ok p
            /\ p = Reference.round_half_even (o * 100) Reference.totalBeds
            /\ p = Reference.round_half_up (o * 100) Reference.totalBeds
            /\ 60 <= p <= 100.
Proof.
  intros Ho. pose proof (bed_pct_agrees_on_range o Ho) as H.
  unfold bed_pct_agrees in H.
  destruct (bed_pct o) as [p | e]; [| discriminate].
  exists p. unfold in_range in H.
  rewrite !andb_true_iff, !Z.eqb_eq, !Z.leb_le in H.
  intuition.
Qed.

Lemma clamp_max_min (x low high : Z) :
  low <= high -> Z.max low (Z.min high x) = Reference.clamp x low high.
Proof.
  intros Hlh. unfold Reference.clamp.
  destruct (Z.ltb_spec x low); [lia |].
  destruct (Z.ltb_spec high x); lia.
Qed.

Lemma doctors_shown_ref (D : Z) : doctors_shown D = Reference.doctorsOnDuty D.
Proof.
  unfold doctors_shown, Reference.doctorsOnDuty, int_or.
  destruct (D =? 0); reflexivity.
Qed.

(** The success path: both queries answer, line 114 returns [p]. *)
Lemma live_stats_success (db : option Database) (today : string) (D A p : Z) :
  store_counts db today D A ->
  bed_pct (occupied_beds D) = Ok p ->
  live_stats db today
  = Ok (snapshot (wait_min D A) p (doctors_shown D) (activity D A)).
Proof.
  intros [HD HA] Hp.
  unfold live_stats, live_stats_try.
  rewrite HD. cbn [bind]. rewrite Hp. cbn [bind]. rewrite HA. reflexivity.
Qed.

(** The failure path: a query raises [e]. *)
Lemma live_stats_failure (db : option Database) (today : string)
    (e : PyException) :
  store_raises db today e ->
  live_stats db today = Ok (fallback (exc_str e)).
Proof.
  intros [HD | (D & HD0 & HD & HA)]; unfold live_stats, live_stats_try.
  - rewrite HD. reflexivity.
  - rewrite HD. cbn [bind].
    destruct (bed_pct_spec (occupied_beds D) (occupied_beds_range D HD0))
      as (p & Hp & _).
    rewrite Hp. cbn [bind]. rewrite HA. reflexivity.
Qed.

Lemma well_formed_fallback (note : string) : well_formed (fallback note) = true.
Proof. reflexivity. Qed.

Lemma well_formed_snapshot (w b n a : Z) :
  5 <= w <= 45 -> 0 <= b <= 100 -> 12 <= n -> 40 <= a <= 95 ->
  well_formed (snapshot w b n a) = true.
Proof.
  intros Hw Hb Hn Ha. unfold well_formed, snapshot, dict_int. cbn.
  unfold in_range.
  repeat (apply andb_true_intro; split); apply Z.leb_le; lia.
Qed.

(** A query either answers or raises. *)
Lemma store_counts_or_raises (db : option Database) (today : string) :
  counts_nonneg db today ->
  (exists D A, 0 <= D /\ 0 <= A /\ store_counts db today D A) \/
  (exists e, store_raises db today e).
Proof.
  intros [HnD HnA]. unfold store_counts, store_raises.
  destruct (query_doctors db) as [D | e] eqn:HD.
  - destruct (query_appointments db today) as [A | e] eqn:HA.
    + left. exists D, A. auto.
    + right. exists e. right. exists D. auto.
  - right. exists e. left. reflexivity.
Qed.

(* ===================================================================== *)
(** * The success path                                                   *)
(* ===================================================================== *)

(** C1: for non-negative counts [D] and [A] returned by the store, the
    response has exactly the keys [wait], [beds], [doctors] and
    [activity], with [5 <= wait <= 45], [0 <= beds <= 100],
    [doctors >= 12] and [40 <= activity <= 95]. *)
Theorem C1_success_ranges (db : option Database) (today : string) (D A : Z) :
  0 <= D -> 0 <= A -> store_counts db today D A ->
  exists w b n a,
    live_stats db today
    = Ok [("wait", PyInt w); ("beds", PyInt b);
          ("doctors", PyInt n); ("activity", PyInt a)]
    /\ 5 <= w <= 45 /\ 0 <= b <= 100 /\ 12 <= n /\ 40 <= a <= 95.
Proof.
  intros HD HA Hc.
  destruct (bed_pct_spec _ (occupied_beds_range D HD)) as (p & Hp & _ & _ & Hr).
  exists (wait_min D A), p, (doctors_shown D), (activity D A).
  split; [exact (live_stats_success db today D A p Hc Hp) |].
  unfold wait_min, doctors_shown, activity, activity_sum. lia.
Qed.

Lemma C1_success_ranges_witness :
  exists w b n a,
    live_stats (Some (counting_db 100 0)) "2024-05-01"
    = Ok [("wait", PyInt w); ("beds", PyInt b);
          ("doctors", PyInt n); ("activity", PyInt a)]
    /\ 5 <= w <= 45 /\ 0 <= b <= 100 /\ 12 <= n /\ 40 <= a <= 95.
Proof.
  apply (C1_success_ranges (Some (counting_db 100 0)) "2024-05-01" 100 0);
    [lia | lia | split; reflexivity].
Defined.

(** C2: for non-negative counts [D] and [A] the response is the one the
    reference algorithm gives: [occupiedBeds = min(250, 150 + (D // 2) * 3)],
    [beds = round(occupiedBeds / 250 * 100)] (the nearest integer of the
    exact ratio, whichever way a tie would go),
    [wait = clamp(10 + A // 3 - D // 5, 5, 45)],
    [activity = clamp(60 + D * 2 - A // 4, 40, 95)] and
    [doctors = max(12, D if D != 0 else 24)], with floor division and the
    clamp applied to the finished sum. *)
Theorem C2_reference_algorithm (db : option Database) (today : string)
    (D A : Z) :
  0 <= D -> 0 <= A -> store_counts db today D A ->
  live_stats db today
  = Ok [("wait", PyInt (Reference.waitMinutes D A));
        ("beds", PyInt (Reference.bedOccupancyPercent D));
        ("doctors", PyInt (Reference.doctorsOnDuty D));
        ("activity", PyInt (Reference.activityScore D A))]
  /\ occupied_beds D = Reference.occupiedBeds D
  /\ Reference.bedOccupancyPercent D
     = Reference.round_half_up (Reference.occupiedBeds D * 100)
                               Reference.totalBeds.
Proof.
  intros HD HA Hc.
  destruct (bed_pct_spec _ (occupied_beds_range D HD))
    as (p & Hp & Heven & Hup & _).
  assert (Hocc : occupied_beds D = Reference.occupiedBeds D) by reflexivity.
  split; [| split; [exact Hocc |]].
  - rewrite (live_stats_success db today D A p Hc Hp).
    unfold Reference.waitMinutes, Reference.activityScore,
      Reference.bedOccupancyPercent.
    rewrite <- !clamp_max_min by lia.
    rewrite <- doctors_shown_ref, <- Hocc, <- Heven.
    reflexivity.
  - unfold Reference.bedOccupancyPercent.
    rewrite <- Hocc, <- Heven. exact Hup.
Qed.

Lemma C2_reference_algorithm_witness :
  live_stats (Some (counting_db 7 40)) "2024-05-01"
  = Ok [("wait", PyInt (Reference.waitMinutes 7 40));
        ("beds", PyInt (Reference.bedOccupancyPercent 7));
        ("doctors", PyInt (Reference.doctorsOnDuty 7));
        ("activity", PyInt (Reference.activityScore 7 40))].
Proof.
  apply (C2_reference_algorithm (Some (counting_db 7 40)) "2024-05-01" 7 40);
    [lia | lia | split; reflexivity].
Defined.

(** C6: the shown doctor count is 24 in place of a count of exactly zero;
    a count from 1 to 11 is shown as the floor 12 (not 24), and a count of
    12 or more is shown as it is. *)
Theorem C6_substitution_only_at_zero (db : option Database) (today : string)
    (D A : Z) :
  0 <= D -> store_counts db today D A ->
  exists d,
    live_stats db today = Ok d
    /\ (D = 0 -> dict_int "doctors" d = Some 24)
    /\ (1 <= D <= 11 -> dict_int "doctors" d = Some 12)
    /\ (12 <= D -> dict_int "doctors" d = Some D).
Proof.
  intros HD Hc.
  destruct (bed_pct_spec _ (occupied_beds_range D HD)) as (p & Hp & _).
  eexists. split; [exact (live_stats_success db today D A p Hc Hp) |].
  unfold dict_int, snapshot. cbn [dict_get String.eqb Ascii.eqb Bool.eqb].
  unfold doctors_shown, int_or.
  repeat split; intros HD'; f_equal.
  - subst D. reflexivity.
  - destruct (Z.eqb_spec D 0); lia.
  - destruct (Z.eqb_spec D 0); lia.
Qed.

Lemma C6_substitution_only_at_zero_witness :
  exists d,
    live_stats (Some (counting_db 3 0)) "2024-05-01" = Ok d
    /\ dict_int "doctors" d = Some 12.
Proof.
  destruct (C6_substitution_only_at_zero
              (Some (counting_db 3 0)) "2024-05-01" 3 0)
    as (d & Hd & _ & Hsmall & _); [lia | split; reflexivity |].
  exists d. split; [exact Hd | apply Hsmall; lia].
Defined.

(** C7: with [D = 24] and [A = 9], [occupied_beds] is 186, line 114
    makes 74 of it, the sum of line 122 is 106, above the cap, and the
    response is [wait] 9, [beds] 74, [doctors] 24 and [activity] 95. *)
Theorem C7_example_24_9 (db : option Database) (today : string) :
  store_counts db today 24 9 ->
  occupied_beds 24 = 186
  /\ bed_pct 186 = Ok 74
  /\ activity_sum 24 9 = 106
  /\ live_stats db today
     = Ok [("wait", PyInt 9); ("beds", PyInt 74);
           ("doctors", PyInt 24); ("activity", PyInt 95)].
Proof.
  intros Hc. repeat (split; [reflexivity |]).
  apply (live_stats_success db today 24 9 74 Hc). reflexivity.
Qed.

Lemma C7_example_24_9_witness :
  live_stats (Some (counting_db 24 9)) "2024-05-01"
  = Ok [("wait", PyInt 9); ("beds", PyInt 74);
        ("doctors", PyInt 24); ("activity", PyInt 95)].
Proof.
  apply (C7_example_24_9 (Some (counting_db 24 9)) "2024-05-01").
  split; reflexivity.
Defined.

(** C8: with [D = 0] and [A = 0], [occupied_beds] is 150 and the response
    is [wait] 10, [beds] 60, [doctors] 24 and [activity] 60. *)
Theorem C8_example_0_0 (db : option Database) (today : string) :
  store_counts db today 0 0 ->
  occupied_beds 0 = 150
  /\ live_stats db today
     = Ok [("wait", PyInt 10); ("beds", PyInt 60);
           ("doctors", PyInt 24); ("activity", PyInt 60)].
Proof.
  intros Hc. split; [reflexivity |].
  apply (live_stats_success db today 0 0 60 Hc). reflexivity.
Qed.

Lemma C8_example_0_0_witness :
  live_stats (Some (counting_db 0 0)) "2024-05-01"
  = Ok [("wait", PyInt 10); ("beds", PyInt 60);
        ("doctors", PyInt 24); ("activity", PyInt 60)].
Proof.
  apply (C8_example_0_0 (Some (counting_db 0 0)) "2024-05-01").
  split; reflexivity.
Defined.

(** C10: for a non-negative count [D] (and any [A]) at least 150 of the
    250 beds count as occupied, and [beds] is at least 60. *)
Theorem C10_beds_at_least_60 (db : option Database) (today : string)
    (D A : Z) :
  0 <= D -> store_counts db today D A ->
  150 <= occupied_beds D
  /\ exists d b,
       live_stats db today = Ok d
       /\ dict_int "beds" d = Some b /\ 60 <= b.
Proof.
  intros HD Hc.
  pose proof (occupied_beds_range D HD) as Ho.
  split; [lia |].
  destruct (bed_pct_spec _ Ho) as (p & Hp & _ & _ & Hr).
  eexists; exists p.
  split; [exact (live_stats_success db today D A p Hc Hp) |].
  split; [reflexivity | lia].
Qed.

Lemma C10_beds_at_least_60_witness :
  exists d b,
    live_stats (Some (counting_db 1 1000)) "2024-05-01" = Ok d
    /\ dict_int "beds" d = Some b /\ 60 <= b.
Proof.
  apply (C10_beds_at_least_60 (Some (counting_db 1 1000)) "2024-05-01" 1 1000);
    [lia | split; reflexivity].
Defined.

(* ===================================================================== *)
(** * The failure path and the absent handle                             *)
(* ===================================================================== *)

(** An exception whose [str(e)] is empty, as [Exception()] has. *)
Definition silent_error : PyException := mkExc "Exception" "".

(** A server-selection failure with a description of 127 characters. *)
Definition timeout_error : PyException :=
  mkExc "ServerSelectionTimeoutError"
    "localhost:27017: [Errno 111] Connection refused, Timeout: 30s, Topology Description: <TopologyDescription id: 1, type: Unknown>".

(** C3, as stated, fails: a query that raises an exception with an empty
    description gives the fallback numbers with an empty note, and a
    description of 127 characters comes back whole in the note, not
    cut. *)
Lemma C3_note_empty_or_uncut :
  (store_raises (Some (failing_db silent_error)) "2024-05-01" silent_error
   /\ live_stats (Some (failing_db silent_error)) "2024-05-01"
      = Ok [("wait", PyInt 15); ("beds", PyInt 82); ("doctors", PyInt 24);
            ("activity", PyInt 70); ("note", PyStr "")]
   /\ ~ (exists d note,
           live_stats (Some (failing_db silent_error)) "2024-05-01" = Ok d
           /\ dict_str "note" d = Some note
           /\ note <> ""))
  /\ (store_raises (Some (failing_db timeout_error)) "2024-05-01" timeout_error
      /\ exists d note,
           live_stats (Some (failing_db timeout_error)) "2024-05-01" = Ok d
           /\ dict_str "note" d = Some note
           /\ String.length note = 127%nat
           /\ note = exc_str timeout_error).
Proof.
  split; [split; [| split] | split].
  - left. reflexivity.
  - reflexivity.
  - intros (d & note & Hrun & Hnote & Hne). cbn in Hrun.
    injection Hrun as <-. cbn in Hnote. injection Hnote as <-.
    apply Hne. reflexivity.
  - left. reflexivity.
  - eexists; eexists. split; [reflexivity |].
    split; [reflexivity | split; reflexivity].
Qed.

(** C3, amended: whenever one of the two count queries raises [e], the
    response is exactly [wait] 15, [beds] 82, [doctors] 24, [activity] 70
    and a [note] that is [str(e)], the whole description of the error
    (so an empty note for an empty description). *)
Theorem C3_fallback_with_note (db : option Database) (today : string)
    (e : PyException) :
  store_raises db today e ->
  live_stats db today
  = Ok [("wait", PyInt 15); ("beds", PyInt 82); ("doctors", PyInt 24);
        ("activity", PyInt 70); ("note", PyStr (exc_str e))].
Proof.
  intros Hr. exact (live_stats_failure db today e Hr).
Qed.

Lemma C3_fallback_with_note_witness :
  live_stats (Some (half_failing_db 24 timeout_error)) "2024-05-01"
  = Ok [("wait", PyInt 15); ("beds", PyInt 82); ("doctors", PyInt 24);
        ("activity", PyInt 70); ("note", PyStr (exc_str timeout_error))].
Proof.
  apply (C3_fallback_with_note
           (Some (half_failing_db 24 timeout_error)) "2024-05-01" timeout_error).
  right. exists 24. split; [lia | split; reflexivity].
Defined.

(** C4, as stated, fails: with the handle absent ([db] is [None]) the
    response is [wait] 10, [beds] 60, [doctors] 24, [activity] 60 with no
    note; it is not the fallback. *)
Lemma C4_absent_handle_is_computed :
  live_stats None "2024-05-01"
  = Ok [("wait", PyInt 10); ("beds", PyInt 60);
        ("doctors", PyInt 24); ("activity", PyInt 60)]
  /\ ~ (exists d,
          live_stats None "2024-05-01" = Ok d
          /\ (dict_int "wait" d = Some 15 \/ dict_int "beds" d = Some 82
              \/ dict_int "activity" d = Some 70
              \/ dict_get "note" d <> None)).
Proof.
  split; [reflexivity |].
  intros (d & Hrun & Hd). cbn in Hrun. injection Hrun as <-.
  cbn in Hd. destruct Hd as [Hd | [Hd | [Hd | Hd]]];
    try discriminate Hd.
  apply Hd. reflexivity.
Qed.

(** C4, amended: an absent handle is no error: both counts are taken
    as 0, and the response is the one computed from [D = 0], [A = 0],
    [wait] 10, [beds] 60, [doctors] 24, [activity] 60, with no note. *)
Theorem C4_absent_handle_counts_zero (today : string) :
  query_doctors None = Ok 0
  /\ query_appointments None today = Ok 0
  /\ live_stats None today
     = Ok [("wait", PyInt 10); ("beds", PyInt 60);
           ("doctors", PyInt 24); ("activity", PyInt 60)]
  /\ (forall d, live_stats None today = Ok d -> dict_get "note" d = None).
Proof.
  repeat (split; [reflexivity |]).
  intros d Hd. cbn in Hd. injection Hd as <-. reflexivity.
Qed.

(** C5: whatever the store does (non-negative counts, or an exception
    from the truth test of the handle or from either query), the
    operation returns a response and does not raise, and the response,
    computed or fallback, has the four fields within their ranges. *)
Theorem C5_never_raises (db : option Database) (today : string) :
  counts_nonneg db today ->
  exists d, live_stats db today = Ok d /\ well_formed d = true.
Proof.
  intros Hnn.
  destruct (store_counts_or_raises db today Hnn)
    as [(D & A & HD & HA & Hc) | (e & Hr)].
  - destruct (bed_pct_spec _ (occupied_beds_range D HD))
      as (p & Hp & _ & _ & Hrange).
    eexists. split; [exact (live_stats_success db today D A p Hc Hp) |].
    apply well_formed_snapshot;
      unfold wait_min, doctors_shown, activity, activity_sum; lia.
  - exists (fallback (exc_str e)).
    split; [exact (live_stats_failure db today e Hr) |].
    apply well_formed_fallback.
Qed.

Lemma C5_never_raises_witness :
  exists d,
    live_stats (Some (half_failing_db 24 timeout_error)) "2024-05-01" = Ok d
    /\ well_formed d = true.
Proof.
  apply (C5_never_raises (Some (half_failing_db 24 timeout_error)) "2024-05-01").
  split; intros n Hn; cbn in Hn.
  - injection Hn as Hn. lia.
  - discriminate Hn.
Defined.

(* ===================================================================== *)
(** * What the response depends on                                       *)
(* ===================================================================== *)

(** A store that tells the two queries apart by their filter, not by the
    collection name. *)
Definition filter_db (d a : Z) : Database :=
  mkDatabase (Ok true)
    (fun _ filter =>
       match dict_get "date" filter with
       | Some _ => Ok a
       | None   => Ok d
       end).

(** The handle and the date reach the response through the outcomes of
    the two queries only. *)
Lemma response_from_query_outcomes (db1 db2 : option Database)
    (today1 today2 : string) :
  query_doctors db1 = query_doctors db2 ->
  query_appointments db1 today1 = query_appointments db2 today2 ->
  live_stats db1 today1 = live_stats db2 today2.
Proof.
  intros HD HA. unfold live_stats, live_stats_try.
  rewrite HD, HA. reflexivity.
Qed.

Example response_from_query_outcomes_run :
  live_stats (Some (counting_db 30 12)) "2024-05-01"
  = live_stats (Some (filter_db 30 12)) "2024-12-31".
Proof.
  apply (response_from_query_outcomes
           (Some (counting_db 30 12)) (Some (filter_db 30 12))
           "2024-05-01" "2024-12-31"); reflexivity.
Qed.

(* ===================================================================== *)
(** * Further runs                                                       *)
(* ===================================================================== *)

(** [D = 100], [A = 0]: the bed count is capped at 250. *)
Example run_100_0 :
  occupied_beds 100 = 250
  /\ live_stats (Some (counting_db 100 0)) "2024-05-01"
     = Ok (snapshot 5 100 100 95).
Proof. split; reflexivity. Qed.

(** Line 114 on 186 beds: [186 / 250] is the float
    [6701356245527298 * 2^-53], times 100 it is just below 74.4. *)
Example bed_pct_186 :
  PyFloat.int_truediv 186 250 = Ok (S754_finite false 6701356245527298 (-53))
  /\ bed_pct 186 = Ok 74.
Proof. split; reflexivity. Qed.

(** [round] sends a tie to the even neighbour. *)
Example round_ties :
  PyFloat.round (PyFloat.mul_int (S754_finite false 1 (-1)) 5) = Ok 2
  /\ PyFloat.round (PyFloat.mul_int (S754_finite false 1 (-1)) 7) = Ok 4.
Proof. split; reflexivity. Qed.

(** A handle that refuses the truth test [if db]: the refusal is caught
    like any other exception. *)
Example run_untestable_handle :
  live_stats
    (Some (untestable_db (mkExc "NotImplementedError" "no truth value")))
    "2024-05-01"
  = Ok (fallback "no truth value").
Proof. reflexivity. Qed.

(** Below zero the range of [beds] is lost, so the bounds do need a
    non-negative count. *)
Example run_negative_count :
  live_stats (Some (counting_db (-1000) 0)) "2024-05-01"
  = Ok (snapshot 45 (-540) 12 40).
Proof. reflexivity. Qed.


(* ===================================================================== *)
(** * More on [live_stats]: the note, monotonicity, saturation           *)
(* ===================================================================== *)

Lemma store_counts_not_raises (db : option Database) (today : string)
    (D A : Z) (e : PyException) :
  store_counts db today D A -> ~ store_raises db today e.
Proof.
  intros [HD HA] [Hr | (D' & _ & _ & Hr)]; congruence.
Qed.

(** X1: with non-negative counts, the response carries a [note] exactly
    when one of the two queries raised; a computed snapshot never has
    one. *)
Theorem note_iff_query_raised (db : option Database) (today : string) :
  counts_nonneg db today ->
  exists d,
    live_stats db today = Ok d
    /\ ((exists e, store_raises db today e)
        <-> (exists n, dict_get "note" d = Some (PyStr n))).
Proof.
  intros Hnn.
  destruct (store_counts_or_raises db today Hnn)
    as [(D & A & HD & HA & Hc) | (e & Hr)].
  - destruct (bed_pct_spec _ (occupied_beds_range D HD)) as (p & Hp & _).
    eexists. split; [exact (live_stats_success db today D A p Hc Hp) |].
    split.
    + intros (e & Hr). destruct (store_counts_not_raises _ _ _ _ e Hc Hr).
    + intros (n & Hn). cbn in Hn. discriminate Hn.
  - exists (fallback (exc_str e)).
    split; [exact (live_stats_failure db today e Hr) |].
    split; [intros _; exists (exc_str e); reflexivity | intros _; exists e; exact Hr].
Qed.

Lemma note_iff_query_raised_witness :
  exists d,
    live_stats (Some (counting_db 24 9)) "2024-05-01" = Ok d
    /\ ((exists e, store_raises (Some (counting_db 24 9)) "2024-05-01" e)
        <-> (exists n, dict_get "note" d = Some (PyStr n))).
Proof.
  apply (note_iff_query_raised (Some (counting_db 24 9)) "2024-05-01").
  split; intros n Hn; cbn in Hn; injection Hn as Hn; lia.
Defined.

(** X2: the wait never gets shorter with more appointments or with fewer
    doctors. *)
Theorem wait_min_monotone (D D' A A' : Z) :
  D' <= D -> A <= A' -> wait_min D A <= wait_min D' A'.
Proof.
  intros HD HA. unfold wait_min.
  assert (A / 3 <= A' / 3) by (apply Z.div_le_mono; lia).
  assert (D' / 5 <= D / 5) by (apply Z.div_le_mono; lia).
  lia.
Qed.

Lemma wait_min_monotone_witness : wait_min 24 9 <= wait_min 10 60.
Proof. apply (wait_min_monotone 24 10 9 60); lia. Defined.

(** X3: the activity score never drops with more doctors or with fewer
    appointments. *)
Theorem activity_monotone (D D' A A' : Z) :
  D <= D' -> A' <= A -> activity D A <= activity D' A'.
Proof.
  intros HD HA. unfold activity, activity_sum.
  assert (A' / 4 <= A / 4) by (apply Z.div_le_mono; lia).
  lia.
Qed.

Lemma activity_monotone_witness : activity 2 200 <= activity 5 100.
Proof. apply (activity_monotone 2 5 200 100); lia. Defined.

Lemma bed_pct_formula (D : Z) :
  0 <= D ->
  bed_pct (occupied_beds D) = Ok ((200 * occupied_beds D + 250) / 500).
Proof.
  intros HD.
  destruct (bed_pct_spec _ (occupied_beds_range D HD)) as (p & Hp & _ & Hup & _).
  rewrite Hp, Hup. unfold Reference.round_half_up, Reference.totalBeds.
  do 2 f_equal. lia.
Qed.

(** X4: the bed percentage never drops when more doctors are on duty. *)
Theorem bed_pct_monotone (D D' : Z) :
  0 <= D -> D <= D' ->
  exists p p',
    bed_pct (occupied_beds D) = Ok p
    /\ bed_pct (occupied_beds D') = Ok p'
    /\ p <= p'.
Proof.
  intros HD HDD'.
  exists ((200 * occupied_beds D + 250) / 500),
         ((200 * occupied_beds D' + 250) / 500).
  split; [apply bed_pct_formula; lia |].
  split; [apply bed_pct_formula; lia |].
  apply Z.div_le_mono; [lia |].
  unfold occupied_beds, total_beds.
  assert (D / 2 <= D' / 2) by (apply Z.div_le_mono; lia).
  lia.
Qed.

Lemma bed_pct_monotone_witness :
  exists p p',
    bed_pct (occupied_beds 3) = Ok p
    /\ bed_pct (occupied_beds 40) = Ok p'
    /\ p <= p'.
Proof. apply (bed_pct_monotone 3 40); lia. Defined.

(** X5: for non-negative counts the response shows 100 percent of beds
    exactly from 66 doctors on (249 of 250 beds already rounds to 100). *)
Theorem beds_full_iff_66_doctors (db : option Database) (today : string)
    (D A : Z) :
  0 <= D -> store_counts db today D A ->
  exists d b,
    live_stats db today = Ok d
    /\ dict_int "beds" d = Some b
    /\ (b = 100 <-> 66 <= D).
Proof.
  intros HD Hc.
  pose proof (bed_pct_formula D HD) as Hp.
  eexists; eexists.
  split; [exact (live_stats_success db today D A _ Hc Hp) |].
  split; [reflexivity |].
  unfold occupied_beds, total_beds.
  assert (D / 2 < 33 <-> D < 66) by (Z.div_mod_to_equations; lia).
  destruct (Z.le_gt_cases 33 (D / 2)) as [Hk | Hk].
  - destruct (Z.le_gt_cases 34 (D / 2)) as [Hk' | Hk'].
    + rewrite Z.min_l by lia. split; [lia | intros _; reflexivity].
    + replace (D / 2) with 33 by lia. split; [lia | intros _; reflexivity].
  - assert (0 <= D / 2) by (apply Z.div_pos; lia).
    rewrite Z.min_r by lia.
    split; [| lia].
    intros Hb.
    assert ((200 * (150 + D / 2 * 3) + 250) / 500 <= (200 * 246 + 250) / 500)
      by (apply Z.div_le_mono; lia).
    change ((200 * 246 + 250) / 500) with 98 in *. lia.
Qed.

Lemma beds_full_iff_66_doctors_witness :
  exists d b,
    live_stats (Some (counting_db 66 0)) "2024-05-01" = Ok d
    /\ dict_int "beds" d = Some b
    /\ (b = 100 <-> 66 <= 66).
Proof.
  apply (beds_full_iff_66_doctors (Some (counting_db 66 0)) "2024-05-01" 66 0);
    [lia | split; reflexivity].
Defined.

(** A handle that tests false and whose every query would raise [e]. *)
Definition falsy_failing_db (e : PyException) : Database :=
  mkDatabase (Ok false) (fun _ _ => Raise e).

(** X6: a handle that is there but tests false is treated like an absent
    one: whatever its [count_documents] would answer or raise, both
    counts are taken as 0 and the response is [wait] 10, [beds] 60,
    [doctors] 24, [activity] 60, with no note. *)
Theorem falsy_handle_counts_zero (h : Database) (today : string) :
  db_bool h = Ok false ->
  query_doctors (Some h) = Ok 0
  /\ query_appointments (Some h) today = Ok 0
  /\ live_stats (Some h) today
     = Ok [("wait", PyInt 10); ("beds", PyInt 60);
           ("doctors", PyInt 24); ("activity", PyInt 60)].
Proof.
  intros Hb.
  assert (Hc : store_counts (Some h) today 0 0).
  { unfold store_counts, query_doctors, query_appointments, count_or_zero.
    rewrite Hb. split; reflexivity. }
  destruct Hc as [HD HA]. split; [exact HD | split; [exact HA |]].
  apply (live_stats_success (Some h) today 0 0 60); [| reflexivity].
  split; assumption.
Qed.

Lemma falsy_handle_counts_zero_witness :
  live_stats (Some (falsy_failing_db timeout_error)) "2024-05-01"
  = Ok [("wait", PyInt 10); ("beds", PyInt 60);
        ("doctors", PyInt 24); ("activity", PyInt 60)].
Proof.
  destruct (falsy_handle_counts_zero (falsy_failing_db timeout_error)
              "2024-05-01" eq_refl) as (_ & _ & Hrun).
  exact Hrun.
Defined.


(* ===================================================================== *)
(** * Python [str] slices and dictionaries that are updated              *)
(* ===================================================================== *)

(** A Python [str] is held as its UTF-8 bytes; [len] and slices count
    characters (code points), so a continuation byte [10xxxxxx] goes with
    the character it belongs to. *)
Definition is_continuation (c : Ascii.ascii) : bool :=
  let n := Ascii.N_of_ascii c in
  (N.leb 128 n && N.ltb n 192)%bool.

(** [len(s)] *)
Fixpoint py_len (s : string) : nat :=
  match s with
  | EmptyString => O
  | String c s' => if is_continuation c then py_len s' else S (py_len s')
  end.

(** [s[:n]] *)
Fixpoint py_take (n : nat) (s : string) : string :=
  match s with
  | EmptyString => EmptyString
  | String c s' =>
      if is_continuation c then String c (py_take n s')
      else match n with
           | O => EmptyString
           | S n' => String c (py_take n' s')
           end
  end.

(** [d.get(k)]: the first entry under [k]. *)
Fixpoint lookup {V : Type} (k : string) (d : list (string * V)) : option V :=
  match d with
  | [] => None
  | (k', v) :: d' => if String.eqb k k' then Some v else lookup k d'
  end.

(** [d[k] = v]: the entry under [k] is replaced where it stands; a new
    key goes to the end. *)
Fixpoint dict_set {V : Type} (k : string) (v : V) (d : list (string * V))
    : list (string * V) :=
  match d with
  | [] => [(k, v)]
  | (k', v') :: d' =>
      if String.eqb k k' then (k, v) :: d' else (k', v') :: dict_set k v d'
  end.

(** Removal of key [k], as [d.pop(k, ...)] and [del d[k]] do. *)
Definition dict_remove {V : Type} (k : string) (d : list (string * V))
    : list (string * V) :=
  filter (fun kv => negb (String.eqb k (fst kv))) d.

Definition keys {V : Type} (d : list (string * V)) : list string :=
  map fst d.

(** Statements that update one object of type [S] and may raise; what
    was written before a [raise] stays written. *)
Definition stmt (S A : Type) : Type := S -> result A * S.

Definition seq_stmt {S A B : Type} (c : stmt S A) (k : A -> stmt S B)
    : stmt S B :=
  fun s =>
    match c s with
    | (Ok a, s')    => k a s'
    | (Raise e, s') => (Raise e, s')
    end.

(** An expression that reads nothing of the object. *)
Definition eval {S A : Type} (c : result A) : stmt S A := fun s => (c, s).

(** [try: body  except Exception as e: handler e], on statements. *)
Definition try_stmt {S A : Type} (body : stmt S A)
    (handler : PyException -> stmt S A) : stmt S A :=
  fun s =>
    match body s with
    | (Ok a, s')    => (Ok a, s')
    | (Raise e, s') => handler e s'
    end.

Notation "x <~ c ;; k" := (seq_stmt c (fun x => k))
  (at level 61, c at next level, right associativity).
Notation "c >> k" := (seq_stmt c (fun _ => k))
  (at level 61, right associativity).

(* ===================================================================== *)
(** * [test_database]                                                    *)
(* ===================================================================== *)

(** The values of the [/test] report: texts and one list of names. *)
Inductive report_val : Type :=
| RText  (s : string)
| RNames (l : list string).

Definition report : Type := list (string * report_val).

(** [response[k] = v] *)
Definition assign (k : string) (v : report_val) : stmt report unit :=
  fun response => (Ok tt, dict_set k v response).

(** The dictionary literal of lines 30-37. *)
Definition initial_response : report :=
  [("backend", RText "✅ Running");
   ("database", RText "❌ Not Available");
   ("database_url", RText "❌ Not Set");
   ("database_name", RText "❌ Not Set");
   ("connection_status", RText "Not Connected");
   ("collections", RNames [])].

(** Truth value of what [os.getenv] returns: [None] and the empty text
    are falsy. *)
Definition env_truthy (v : option string) : bool :=
  match v with
  | Some s => negb (String.eqb s "")
  | None => false
  end.

(** [os.getenv(name) or default] *)
Definition env_or (v : option string) (default : string) : string :=
  match v with
  | Some s => if String.eqb s "" then default else s
  | None => default
  end.

Section TestDatabase.

(** [os.getenv], and [db.list_collection_names()] of a handle. *)
Variable getenv : string -> option string.
Variable list_collection_names : Database -> result (list string).

(** Lines 39-54. The test of line 40 is [db is not None]: the handle's
    truth value is not asked for. *)
Definition test_database_try (db : option Database) : stmt report unit :=
  try_stmt
    (match db with
     | Some h =>
         assign "database" (RText "✅ Available") >>
         assign "database_url"
           (RText (if env_truthy (getenv "DATABASE_URL")
                   then "✅ Set" else "❌ Not Set")) >>
         assign "database_name"
           (RText (env_or (getenv "DATABASE_NAME") "❌ Not Set")) >>
         try_stmt
           (cols <~ eval (list_collection_names h) ;;
            assign "collections" (RNames (firstn 10 cols)) >>
            assign "database" (RText "✅ Connected & Working") >>
            assign "connection_status" (RText "Connected"))
           (fun e =>
              assign "database"
                (RText ("⚠️ Connected but error: "
                        ++ py_take 80 (exc_str e))))
     | None =>
         assign "database" (RText "⚠️ Available but not initialized")
     end)
    (fun e =>
       assign "database" (RText ("❌ Error: " ++ py_take 80 (exc_str e)))).

(** [test_database()]: run the statements on the fresh [response] and
    return it. *)
Definition test_database (db : option Database) : result report :=
  match test_database_try db initial_response with
  | (Ok _, response) => Ok response
  | (Raise e, _)     => Raise e
  end.

End TestDatabase.

Definition no_env : string -> option string := fun _ => None.

(** A store handle for [/test] runs; its collections are a parameter of
    [test_database], not a field. *)
Definition some_env (name : string) : option string :=
  if String.eqb name "DATABASE_URL" then Some "mongodb://localhost:27017"
  else if String.eqb name "DATABASE_NAME" then Some "hospital"
  else None.

Definition twelve_names : list string :=
  ["c01"; "c02"; "c03"; "c04"; "c05"; "c06";
   "c07"; "c08"; "c09"; "c10"; "c11"; "c12"].

Lemma py_len_take (n : nat) (s : string) : (py_len (py_take n s) <= n)%nat.
Proof.
  revert n. induction s as [| c s IH]; intros n; cbn; [lia |].
  destruct (is_continuation c) eqn:Hc; cbn; rewrite ?Hc.
  - apply IH.
  - destruct n as [| n]; cbn; rewrite ?Hc; [lia |].
    specialize (IH n). lia.
Qed.

Lemma py_take_prefix (n : nat) (s : string) :
  exists rest, s = py_take n s ++ rest.
Proof.
  revert n. induction s as [| c s IH]; intros n; cbn.
  - exists "". reflexivity.
  - destruct (is_continuation c).
    + destruct (IH n) as (rest & Hrest). exists rest. cbn. congruence.
    + destruct n as [| n].
      * exists (String c s). reflexivity.
      * destruct (IH n) as (rest & Hrest). exists rest. cbn. congruence.
Qed.

Lemma py_take_all (n : nat) (s : string) :
  (py_len s <= n)%nat -> py_take n s = s.
Proof.
  revert n. induction s as [| c s IH]; intros n Hlen; cbn in *; [reflexivity |].
  destruct (is_continuation c).
  - f_equal. apply IH. exact Hlen.
  - destruct n as [| n]; [lia |]. f_equal. apply IH. lia.
Qed.

Ltac run_test_database :=
  unfold test_database, test_database_try, try_stmt, seq_stmt, assign, eval;
  cbn.

(** X7: [test_database] never raises, and its report always has the same
    six keys in the same order. *)
Theorem test_database_six_keys (getenv : string -> option string)
    (list_collection_names : Database -> result (list string))
    (db : option Database) :
  exists r,
    test_database getenv list_collection_names db = Ok r
    /\ keys r = ["backend"; "database"; "database_url"; "database_name";
                 "connection_status"; "collections"].
Proof.
  destruct db as [h |].
  - destruct (list_collection_names h) as [cols | e] eqn:Hl;
      run_test_database; rewrite Hl; cbn; eexists; split; reflexivity.
  - run_test_database. eexists; split; reflexivity.
Qed.

(** X8: when the handle lists its collections, the report says
    [Connected] and shows the first ten names at most, in the store's
    order (all of them when there are ten or fewer). *)
Theorem test_database_first_ten (getenv : string -> option string)
    (list_collection_names : Database -> result (list string))
    (h : Database) (cols : list string) :
  list_collection_names h = Ok cols ->
  exists r shown,
    test_database getenv list_collection_names (Some h) = Ok r
    /\ lookup "connection_status" r = Some (RText "Connected")
    /\ lookup "database" r = Some (RText "✅ Connected & Working")
    /\ lookup "collections" r = Some (RNames shown)
    /\ (List.length shown <= 10)%nat
    /\ (exists rest, cols = (shown ++ rest)%list)
    /\ ((List.length cols <= 10)%nat -> shown = cols).
Proof.
  intros Hl. run_test_database. rewrite Hl. cbn.
  eexists; exists (firstn 10 cols).
  repeat (split; [reflexivity |]).
  split; [apply firstn_le_length |].
  split.
  - exists (skipn 10 cols). symmetry. apply firstn_skipn.
  - intros Hlen. apply firstn_all2. exact Hlen.
Qed.

Lemma test_database_first_ten_witness :
  exists r shown,
    test_database some_env (fun _ => Ok twelve_names)
                  (Some (counting_db 1 1)) = Ok r
    /\ lookup "collections" r = Some (RNames shown)
    /\ List.length shown = 10%nat.
Proof.
  destruct (test_database_first_ten some_env (fun _ => Ok twelve_names)
              (counting_db 1 1) twelve_names eq_refl)
    as (r & shown & Hr & _ & _ & Hs & _).
  exists r, shown. split; [exact Hr | split; [exact Hs |]].
  cbn in Hr. injection Hr as Hr. subst r. cbn in Hs.
  injection Hs as Hs. subst shown. reflexivity.
Defined.

(** X9: when listing the collections raises [e], the report keeps
    [Not Connected] and an empty collection list, and its database line
    carries the first 80 characters of [str(e)] at most (all of it when
    it is no longer than that). *)
Theorem test_database_error_cut_at_80 (getenv : string -> option string)
    (list_collection_names : Database -> result (list string))
    (h : Database) (e : PyException) :
  list_collection_names h = Raise e ->
  exists r shown,
    test_database getenv list_collection_names (Some h) = Ok r
    /\ lookup "database" r
       = Some (RText ("⚠️ Connected but error: " ++ shown))
    /\ (py_len shown <= 80)%nat
    /\ (exists rest, exc_str e = shown ++ rest)
    /\ ((py_len (exc_str e) <= 80)%nat -> shown = exc_str e)
    /\ lookup "connection_status" r = Some (RText "Not Connected")
    /\ lookup "collections" r = Some (RNames []).
Proof.
  intros Hl. run_test_database. rewrite Hl. cbn.
  eexists; exists (py_take 80 (exc_str e)).
  repeat (split; [reflexivity |]).
  split; [apply py_len_take |].
  split; [apply py_take_prefix |].
  split; [apply py_take_all | split; reflexivity].
Qed.

Lemma test_database_error_cut_at_80_witness :
  exists r,
    test_database some_env (fun _ => Raise timeout_error)
                  (Some (counting_db 1 1)) = Ok r
    /\ lookup "database" r
       = Some (RText "⚠️ Connected but error: localhost:27017: [Errno 111] Connection refused, Timeout: 30s, Topology Descript").
Proof.
  destruct (test_database_error_cut_at_80 some_env
              (fun _ => Raise timeout_error) (counting_db 1 1)
              timeout_error eq_refl)
    as (r & shown & Hr & Hd & _).
  exists r. split; [exact Hr |].
  cbn in Hr. injection Hr as Hr. subst r. reflexivity.
Defined.

(** X10: the report says [Connected] exactly when there is a handle and
    listing its collections succeeds. *)
Theorem test_database_connected_iff (getenv : string -> option string)
    (list_collection_names : Database -> result (list string))
    (db : option Database) :
  exists r,
    test_database getenv list_collection_names db = Ok r
    /\ (lookup "connection_status" r = Some (RText "Connected")
        <-> exists h cols, db = Some h /\ list_collection_names h = Ok cols).
Proof.
  destruct db as [h |].
  - destruct (list_collection_names h) as [cols | e] eqn:Hl;
      run_test_database; rewrite Hl; cbn; eexists; (split; [reflexivity |]).
    + split; [intros _; exists h, cols; auto | intros _; reflexivity].
    + split; [intros H; discriminate H |].
      intros (h' & cols & Hh & Hl'). injection Hh as <-. congruence.
  - run_test_database. eexists; split; [reflexivity |].
    split; [intros H; discriminate H |].
    intros (h & cols & Hh & _). discriminate Hh.
Qed.

(** X11: [/test] and [/stats] can disagree about one handle: line 40
    asks [db is not None], line 111 asks [if db]. For a handle whose
    truth test raises [e] and whose collections can be listed, the
    report says [Connected] while the stats are the fallback with the
    note [str(e)]. *)
Theorem connected_report_but_fallback_stats
    (getenv : string -> option string)
    (list_collection_names : Database -> result (list string))
    (h : Database) (cols : list string) (e : PyException) (today : string) :
  list_collection_names h = Ok cols ->
  db_bool h = Raise e ->
  (exists r,
     test_database getenv list_collection_names (Some h) = Ok r
     /\ lookup "connection_status" r = Some (RText "Connected"))
  /\ live_stats (Some h) today
     = Ok [("wait", PyInt 15); ("beds", PyInt 82); ("doctors", PyInt 24);
           ("activity", PyInt 70); ("note", PyStr (exc_str e))].
Proof.
  intros Hl Hb. split.
  - run_test_database. rewrite Hl. cbn. eexists; split; reflexivity.
  - apply (live_stats_failure (Some h) today e). left.
    unfold query_doctors, count_or_zero. rewrite Hb. reflexivity.
Qed.

Lemma connected_report_but_fallback_stats_witness :
  (exists r,
     test_database some_env (fun _ => Ok twelve_names)
       (Some (untestable_db (mkExc "NotImplementedError" "no truth value")))
     = Ok r
     /\ lookup "connection_status" r = Some (RText "Connected"))
  /\ live_stats
       (Some (untestable_db (mkExc "NotImplementedError" "no truth value")))
       "2024-05-01"
     = Ok [("wait", PyInt 15); ("beds", PyInt 82); ("doctors", PyInt 24);
           ("activity", PyInt 70); ("note", PyStr "no truth value")].
Proof.
  apply (connected_report_but_fallback_stats some_env
           (fun _ => Ok twelve_names)
           (untestable_db (mkExc "NotImplementedError" "no truth value"))
           twelve_names (mkExc "NotImplementedError" "no truth value")
           "2024-05-01"); reflexivity.
Defined.

(** X12: without a handle the environment is not read: the report says
    [Not Set] for the URL and the name of the database even when both
    variables are set, and nothing is listed. *)
Theorem test_database_absent_handle (getenv : string -> option string)
    (list_collection_names : Database -> result (list string)) :
  test_database getenv list_collection_names None
  = Ok [("backend", RText "✅ Running");
        ("database", RText "⚠️ Available but not initialized");
        ("database_url", RText "❌ Not Set");
        ("database_name", RText "❌ Not Set");
        ("connection_status", RText "Not Connected");
        ("collections", RNames [])].
Proof. reflexivity. Qed.

(** X13: with a handle, the report shows the URL as set exactly when
    [DATABASE_URL] is set to a non-empty text, and shows the value of
    [DATABASE_NAME] unless it is unset or empty, then [Not Set]. *)
Theorem test_database_env_lines (getenv : string -> option string)
    (list_collection_names : Database -> result (list string))
    (h : Database) :
  exists r url name,
    test_database getenv list_collection_names (Some h) = Ok r
    /\ lookup "database_url" r = Some (RText url)
    /\ lookup "database_name" r = Some (RText name)
    /\ (url = "✅ Set"
        <-> exists v, getenv "DATABASE_URL" = Some v /\ v <> "")
    /\ (forall v, getenv "DATABASE_NAME" = Some v -> v <> "" -> name = v)
    /\ (getenv "DATABASE_NAME" = None \/ getenv "DATABASE_NAME" = Some ""
        -> name = "❌ Not Set").
Proof.
  exists
    (match list_collection_names h with
     | Ok cols =>
         [("backend", RText "✅ Running");
          ("database", RText "✅ Connected & Working");
          ("database_url",
           RText (if env_truthy (getenv "DATABASE_URL")
                  then "✅ Set" else "❌ Not Set"));
          ("database_name",
           RText (env_or (getenv "DATABASE_NAME") "❌ Not Set"));
          ("connection_status", RText "Connected");
          ("collections", RNames (firstn 10 cols))]
     | Raise e =>
         [("backend", RText "✅ Running");
          ("database",
           RText ("⚠️ Connected but error: " ++ py_take 80 (exc_str e)));
          ("database_url",
           RText (if env_truthy (getenv "DATABASE_URL")
                  then "✅ Set" else "❌ Not Set"));
          ("database_name",
           RText (env_or (getenv "DATABASE_NAME") "❌ Not Set"));
          ("connection_status", RText "Not Connected");
          ("collections", RNames [])]
     end),
    (if env_truthy (getenv "DATABASE_URL") then "✅ Set" else "❌ Not Set"),
    (env_or (getenv "DATABASE_NAME") "❌ Not Set").
  split.
  { run_test_database.
    destruct (list_collection_names h); reflexivity. }
  split; [destruct (list_collection_names h); reflexivity |].
  split; [destruct (list_collection_names h); reflexivity |].
  split; [| split].
  - unfold env_truthy. destruct (getenv "DATABASE_URL") as [v |].
    + destruct (String.eqb_spec v "") as [-> | Hne]; cbn.
      * split; [intros H; discriminate H |].
        intros (v & Hv & Hne). injection Hv as <-. congruence.
      * split; [intros _; exists v; auto | reflexivity].
    + split; [intros H; discriminate H |].
      intros (v & Hv & _). discriminate Hv.
  - intros v Hv Hne. unfold env_or. rewrite Hv.
    destruct (String.eqb_spec v ""); [contradiction | reflexivity].
  - intros [Hv | Hv]; unfold env_or; rewrite Hv; reflexivity.
Qed.

Lemma test_database_env_lines_witness :
  exists r,
    test_database some_env (fun _ => Ok twelve_names)
                  (Some (counting_db 1 1)) = Ok r
    /\ lookup "database_url" r = Some (RText "✅ Set")
    /\ lookup "database_name" r = Some (RText "hospital").
Proof.
  destruct (test_database_env_lines some_env (fun _ => Ok twelve_names)
              (counting_db 1 1))
    as (r & url & name & Hr & Hurl & Hname & Hset & Hshown & _).
  exists r. split; [exact Hr |].
  rewrite Hurl, Hname. split; do 2 f_equal.
  - apply Hset. exists "mongodb://localhost:27017".
    split; [reflexivity | discriminate].
  - apply (Hshown "hospital"); [reflexivity | discriminate].
Defined.


(* ===================================================================== *)
(** * Stored documents and [normalize]                                   *)
(* ===================================================================== *)

From Stdlib Require Import DecimalString.

(** A value of a stored document, by what lines 76-79 ask of it:
    - a text, an integer or a truth value;
    - any other object without an [isoformat] attribute ([None], an
      [ObjectId], ...), known by the text [str(v)] gives;
    - an object with [isoformat] (a [datetime], a [date], ...), known by
      the texts [str(v)] and [v.isoformat()] give. *)
Inductive docval : Type :=
| DVal (v : pyval)
| DObj (text : string)
| DTemporal (text iso : string).

Definition document : Type := list (string * docval).

(** [str(v)]; a stored integer has 64 bits at most, well within what
    [str] prints. *)
Definition py_str (v : docval) : string :=
  match v with
  | DVal (PyStr s)  => s
  | DVal (PyInt n)  => NilZero.string_of_int (Z.to_int n)
  | DVal (PyBool b) => if b then "True" else "False"
  | DObj text => text
  | DTemporal text _ => text
  end.

(** [hasattr(v, "isoformat")] *)
Definition has_isoformat (v : docval) : bool :=
  match v with
  | DTemporal _ _ => true
  | _ => false
  end.

(** One turn of the loop of lines 77-79, for the item [(k, v)]. *)
Definition isoformat_step (doc : document) (item : string * docval)
    : document :=
  match snd item with
  | DTemporal _ iso => dict_set (fst item) (DVal (PyStr iso)) doc
  | _ => doc
  end.

(** [normalize(doc)], lines 75-80: the loop runs over [list(doc.items())],
    the items as they are when the loop starts. *)
Definition normalize (doc : document) : document :=
  let popped :=
    match lookup "_id" doc with
    | Some v => v
    | None => DVal (PyStr "")
    end in
  let doc := dict_remove "_id" doc in
  let doc := dict_set "id" (DVal (PyStr (py_str popped))) doc in
  fold_left isoformat_step doc doc.

(** What the loop does to one value. *)
Definition iso_text (v : docval) : docval :=
  match v with
  | DTemporal _ iso => DVal (PyStr iso)
  | _ => v
  end.

Definition map_values (f : docval -> docval) (doc : document) : document :=
  map (fun kv => (fst kv, f (snd kv))) doc.

(** A stored appointment: an [ObjectId], texts, an empty [notes] and a
    planned [datetime]. *)
Definition stored_appointment : document :=
  [("_id", DObj "65f1c0ffee0123456789abcd");
   ("name", DVal (PyStr "Ada Lovelace"));
   ("date", DVal (PyStr "2024-05-01"));
   ("notes", DObj "None");
   ("created_for", DTemporal "2024-05-01 09:30:00" "2024-05-01T09:30:00")].

Lemma keys_app {V : Type} (d1 d2 : list (string * V)) :
  keys (d1 ++ d2) = (keys d1 ++ keys d2)%list.
Proof. apply map_app. Qed.

Lemma keys_map_values (f : docval -> docval) (doc : document) :
  keys (map_values f doc) = keys doc.
Proof.
  unfold keys, map_values. rewrite map_map. reflexivity.
Qed.

Lemma dict_set_middle {V : Type} (k : string) (v w : V)
    (pre post : list (string * V)) :
  ~ In k (keys pre) ->
  dict_set k v (pre ++ (k, w) :: post) = (pre ++ (k, v) :: post)%list.
Proof.
  induction pre as [| [k' v'] pre IH]; intros Hnot; cbn.
  - rewrite String.eqb_refl. reflexivity.
  - destruct (String.eqb_spec k k') as [-> | Hne].
    + exfalso. apply Hnot. left. reflexivity.
    + f_equal. apply IH. intros Hin. apply Hnot. right. exact Hin.
Qed.

Lemma lookup_dict_set_same {V : Type} (k : string) (v : V)
    (d : list (string * V)) :
  lookup k (dict_set k v d) = Some v.
Proof.
  induction d as [| [k' v'] d IH]; cbn.
  - rewrite String.eqb_refl. reflexivity.
  - destruct (String.eqb_spec k k') as [-> | Hne]; cbn.
    + rewrite String.eqb_refl. reflexivity.
    + destruct (String.eqb_spec k k'); [contradiction | exact IH].
Qed.

Lemma lookup_dict_set_other {V : Type} (k k' : string) (v : V)
    (d : list (string * V)) :
  k <> k' -> lookup k' (dict_set k v d) = lookup k' d.
Proof.
  intros Hne. induction d as [| [k0 v0] d IH]; cbn.
  - destruct (String.eqb_spec k' k); [congruence | reflexivity].
  - destruct (String.eqb_spec k k0) as [-> | Hne0]; cbn.
    + destruct (String.eqb_spec k' k0); [congruence | reflexivity].
    + destruct (String.eqb_spec k' k0); [reflexivity | exact IH].
Qed.

Lemma lookup_dict_remove_same {V : Type} (k : string) (d : list (string * V)) :
  lookup k (dict_remove k d) = None.
Proof.
  induction d as [| [k' v'] d IH]; cbn; [reflexivity |].
  destruct (String.eqb_spec k k') as [-> | Hne]; cbn; [exact IH |].
  destruct (String.eqb_spec k k'); [contradiction | exact IH].
Qed.

Lemma lookup_dict_remove_other {V : Type} (k k' : string)
    (d : list (string * V)) :
  k <> k' -> lookup k' (dict_remove k d) = lookup k' d.
Proof.
  intros Hne. induction d as [| [k0 v0] d IH]; cbn; [reflexivity |].
  destruct (String.eqb_spec k k0) as [-> | Hne0]; cbn.
  - destruct (String.eqb_spec k' k0); [congruence | exact IH].
  - destruct (String.eqb_spec k' k0); [reflexivity | exact IH].
Qed.

Lemma lookup_map_values (f : docval -> docval) (k : string) (doc : document) :
  lookup k (map_values f doc) = option_map f (lookup k doc).
Proof.
  induction doc as [| [k' v'] doc IH]; cbn; [reflexivity |].
  destruct (String.eqb k k'); [reflexivity | exact IH].
Qed.

Lemma keys_dict_remove {V : Type} (k : string) (d : list (string * V)) :
  keys (dict_remove k d) = filter (fun k' => negb (String.eqb k k')) (keys d).
Proof.
  induction d as [| [k' v'] d IH]; cbn; [reflexivity |].
  destruct (String.eqb k k'); cbn; [exact IH | f_equal; exact IH].
Qed.

Lemma keys_dict_set_present {V : Type} (k : string) (v : V)
    (d : list (string * V)) :
  In k (keys d) -> keys (dict_set k v d) = keys d.
Proof.
  induction d as [| [k' v'] d IH]; cbn; [intros [] |].
  intros Hin. destruct (String.eqb_spec k k') as [-> | Hne]; cbn.
  - reflexivity.
  - f_equal. apply IH. destruct Hin; [congruence | assumption].
Qed.

Lemma keys_dict_set_absent {V : Type} (k : string) (v : V)
    (d : list (string * V)) :
  ~ In k (keys d) -> keys (dict_set k v d) = (keys d ++ [k])%list.
Proof.
  induction d as [| [k' v'] d IH]; cbn; [reflexivity |].
  intros Hnot. destruct (String.eqb_spec k k') as [-> | Hne]; cbn.
  - exfalso. apply Hnot. left. reflexivity.
  - f_equal. apply IH. intros Hin. apply Hnot. right. exact Hin.
Qed.

Lemma NoDup_keys_dict_set {V : Type} (k : string) (v : V)
    (d : list (string * V)) :
  NoDup (keys d) -> NoDup (keys (dict_set k v d)).
Proof.
  intros Hnd. destruct (in_dec string_dec k (keys d)) as [Hin | Hnot].
  - rewrite keys_dict_set_present by exact Hin. exact Hnd.
  - rewrite keys_dict_set_absent by exact Hnot.
    apply NoDup_app; [exact Hnd | repeat constructor; intros [] |].
    intros x Hx [<- | []]. exact (Hnot Hx).
Qed.

Lemma NoDup_keys_dict_remove {V : Type} (k : string) (d : list (string * V)) :
  NoDup (keys d) -> NoDup (keys (dict_remove k d)).
Proof.
  intros Hnd. rewrite keys_dict_remove. apply NoDup_filter. exact Hnd.
Qed.

(** On a dictionary (no key twice) the loop of lines 77-79 turns every
    value that has [isoformat] into its text and leaves the rest. *)
Lemma isoformat_loop_from (post pre : document) :
  NoDup (keys (pre ++ post)%list) ->
  fold_left isoformat_step post (map_values iso_text pre ++ post)%list
  = map_values iso_text (pre ++ post)%list.
Proof.
  revert pre. induction post as [| [k v] post IH]; intros pre Hnd.
  - cbn. rewrite !app_nil_r. reflexivity.
  - assert (Hnot : ~ In k (keys (map_values iso_text pre))).
    { rewrite keys_map_values. rewrite keys_app in Hnd. cbn in Hnd.
      apply NoDup_remove_2 in Hnd. intros Hin. apply Hnd.
      apply in_or_app. left. exact Hin. }
    cbn [fold_left].
    assert (Hstep :
      isoformat_step (map_values iso_text pre ++ (k, v) :: post)%list (k, v)
      = (map_values iso_text (pre ++ [(k, v)])%list ++ post)%list).
    { unfold map_values at 2. rewrite map_app. cbn [map fst snd].
      rewrite <- app_assoc. cbn [app].
      unfold isoformat_step. cbn [fst snd].
      destruct v as [pv | text | text iso]; cbn [iso_text]; try reflexivity.
      apply dict_set_middle. exact Hnot. }
    rewrite Hstep.
    rewrite (IH (pre ++ [(k, v)])%list).
    + rewrite <- app_assoc. reflexivity.
    + rewrite <- app_assoc. exact Hnd.
Qed.

Lemma isoformat_loop (doc : document) :
  NoDup (keys doc) ->
  fold_left isoformat_step doc doc = map_values iso_text doc.
Proof.
  intros Hnd. exact (isoformat_loop_from doc [] Hnd).
Qed.

(** [normalize] in closed form, on a dictionary. *)
Lemma normalize_closed_form (doc : document) :
  NoDup (keys doc) ->
  normalize doc
  = map_values iso_text
      (dict_set "id"
         (DVal (PyStr (py_str match lookup "_id" doc with
                              | Some v => v
                              | None => DVal (PyStr "")
                              end)))
         (dict_remove "_id" doc)).
Proof.
  intros Hnd. unfold normalize. apply isoformat_loop.
  apply NoDup_keys_dict_set, NoDup_keys_dict_remove, Hnd.
Qed.

Lemma stored_appointment_keys_unique : NoDup (keys stored_appointment).
Proof.
  unfold stored_appointment, keys. cbn [map fst].
  repeat (constructor; [cbn; intuition discriminate |]).
  constructor.
Qed.

Lemma has_isoformat_iso_text (v : docval) : has_isoformat (iso_text v) = false.
Proof. destruct v; reflexivity. Qed.

(** X14: a normalized document has no [_id]; its [id] is the text of the
    [_id] it had, or the empty text when it had none, and replaces
    whatever [id] field was stored. *)
Theorem normalize_id_field (doc : document) :
  NoDup (keys doc) ->
  lookup "_id" (normalize doc) = None
  /\ (forall v, lookup "_id" doc = Some v ->
        lookup "id" (normalize doc) = Some (DVal (PyStr (py_str v))))
  /\ (lookup "_id" doc = None ->
        lookup "id" (normalize doc) = Some (DVal (PyStr ""))).
Proof.
  intros Hnd. rewrite (normalize_closed_form doc Hnd).
  rewrite !lookup_map_values.
  rewrite lookup_dict_set_other by discriminate.
  rewrite lookup_dict_remove_same.
  rewrite lookup_dict_set_same.
  split; [reflexivity |].
  split; [intros v Hv | intros Hv]; rewrite Hv; reflexivity.
Qed.

Lemma normalize_id_field_witness :
  lookup "_id" (normalize stored_appointment) = None
  /\ lookup "id" (normalize stored_appointment)
     = Some (DVal (PyStr "65f1c0ffee0123456789abcd")).
Proof.
  destruct (normalize_id_field stored_appointment
              stored_appointment_keys_unique) as (Hno & Hid & _).
  split; [exact Hno |].
  exact (Hid (DObj "65f1c0ffee0123456789abcd") eq_refl).
Defined.

(** X15: every other field of a normalized document is the stored one,
    a value with [isoformat] replaced by its ISO text and any other value
    untouched; no field is added or lost. *)
Theorem normalize_other_fields (doc : document) (k : string) :
  NoDup (keys doc) -> k <> "_id" -> k <> "id" ->
  lookup k (normalize doc) = option_map iso_text (lookup k doc).
Proof.
  intros Hnd Hk1 Hk2. rewrite (normalize_closed_form doc Hnd).
  rewrite lookup_map_values.
  rewrite lookup_dict_set_other by congruence.
  rewrite lookup_dict_remove_other by congruence.
  reflexivity.
Qed.

Lemma normalize_other_fields_witness :
  lookup "created_for" (normalize stored_appointment)
  = option_map iso_text (lookup "created_for" stored_appointment).
Proof.
  apply (normalize_other_fields stored_appointment "created_for");
    [exact stored_appointment_keys_unique | discriminate | discriminate].
Defined.

(** X16: no value of a normalized document has [isoformat] any more. *)
Theorem normalize_no_isoformat_left (doc : document) :
  NoDup (keys doc) ->
  Forall (fun kv => has_isoformat (snd kv) = false) (normalize doc).
Proof.
  intros Hnd. rewrite (normalize_closed_form doc Hnd).
  unfold map_values. apply Forall_map, Forall_forall.
  intros kv _. apply has_isoformat_iso_text.
Qed.

Lemma normalize_no_isoformat_left_witness :
  Forall (fun kv => has_isoformat (snd kv) = false)
         (normalize stored_appointment).
Proof.
  apply (normalize_no_isoformat_left stored_appointment).
  exact stored_appointment_keys_unique.
Defined.

(** X17: [normalize] keeps a dictionary a dictionary and keeps the order
    of its keys: the stored keys without [_id], and [id] where it stood,
    or at the end when the document had none. *)
Theorem normalize_keys (doc : document) :
  NoDup (keys doc) ->
  NoDup (keys (normalize doc))
  /\ keys (normalize doc)
     = (let ks := filter (fun k => negb (String.eqb "_id" k)) (keys doc) in
        if existsb (String.eqb "id") ks then ks else (ks ++ ["id"])%list).
Proof.
  intros Hnd. rewrite (normalize_closed_form doc Hnd).
  rewrite keys_map_values. split.
  - apply NoDup_keys_dict_set, NoDup_keys_dict_remove, Hnd.
  - cbv zeta. rewrite <- keys_dict_remove.
    destruct (existsb (String.eqb "id") (keys (dict_remove "_id" doc)))
      eqn:Hex.
    + apply keys_dict_set_present.
      apply existsb_exists in Hex. destruct Hex as (x & Hin & Hx).
      apply String.eqb_eq in Hx. subst x. exact Hin.
    + apply keys_dict_set_absent. intros Hin.
      assert (existsb (String.eqb "id") (keys (dict_remove "_id" doc)) = true)
        as Habs by (apply existsb_exists; exists "id"; split;
                    [exact Hin | apply String.eqb_refl]).
      congruence.
Qed.

Lemma normalize_keys_witness :
  keys (normalize stored_appointment)
  = ["name"; "date"; "notes"; "created_for"; "id"].
Proof.
  destruct (normalize_keys stored_appointment stored_appointment_keys_unique)
    as (_ & Hk).
  exact Hk.
Defined.


(* ===================================================================== *)
(** * The document endpoints                                             *)
(* ===================================================================== *)

(** What an endpoint hands to the framework: the value it returns, or
    the [HTTPException(status_code, detail)] it raises. *)
Inductive http_result (A : Type) : Type :=
| Respond (a : A)
| HTTPException (status_code : Z) (detail : string).
Arguments Respond {A} a.
Arguments HTTPException {A} status_code detail.

(** [try: return body  except Exception as e:
      raise HTTPException(status_code=500, detail=str(e))] *)
Definition or_http_500 {A : Type} (body : result A) : http_result A :=
  match body with
  | Ok a    => Respond a
  | Raise e => HTTPException 500 (exc_str e)
  end.

(** The models of [schemas.py], field by field. *)
Record Patient : Type := mkPatient {
  patient_first_name  : string;
  patient_last_name   : string;
  patient_email       : option string;
  patient_phone       : option string;
  patient_dob         : option string;
  patient_blood_group : option string
}.

Record Doctor : Type := mkDoctor {
  doctor_first_name : string;
  doctor_last_name  : string;
  doctor_department : string;
  doctor_email      : option string;
  doctor_phone      : option string;
  doctor_on_duty    : bool
}.

Record Appointment : Type := mkAppointment {
  appt_name        : string;
  appt_email       : string;
  appt_phone       : string;
  appt_department  : string;
  appt_date        : string;
  appt_notes       : option string;
  appt_status      : string;
  appt_created_for : option string
}.

Inductive model : Type :=
| APatient (p : Patient)
| ADoctor (d : Doctor)
| AnAppointment (a : Appointment).

Section DocumentEndpoints.

(** The two helpers of module [database]. *)
Variable create_document : string -> model -> result string.
Variable get_documents : string -> document -> Z -> result (list document).

(** Lines 61-67. *)
Definition create_appointment (payload : Appointment) : http_result pydict :=
  or_http_500
    (app_id <- create_document "appointment" (AnAppointment payload) ;;
     Ok [("id", PyStr app_id); ("status", PyStr "ok")]).

(** Lines 86-92. *)
Definition create_patient (payload : Patient) : http_result pydict :=
  or_http_500
    (pid <- create_document "patient" (APatient payload) ;;
     Ok [("id", PyStr pid); ("status", PyStr "ok")]).

(** Lines 95-101. *)
Definition create_doctor (payload : Doctor) : http_result pydict :=
  or_http_500
    (did <- create_document "doctor" (ADoctor payload) ;;
     Ok [("id", PyStr did); ("status", PyStr "ok")]).

(** Lines 70-83; [limit] is 20 when the request gives none. The
    documents are separate objects, as a cursor yields them, so that
    normalizing one leaves the others as they are. *)
Definition list_appointments (limit : option Z)
    : http_result (list document) :=
  let limit := match limit with Some n => n | None => 20 end in
  or_http_500
    (docs <- get_documents "appointment" [] limit ;;
     Ok (map normalize docs)).

End DocumentEndpoints.

(** A store of appointments that answers a query with its first [limit]
    documents. *)
Definition listing_store (stored : list document)
    : string -> document -> Z -> result (list document) :=
  fun _ _ limit => Ok (firstn (Z.to_nat limit) stored).

Definition ready_for_json (doc : document) : Prop :=
  lookup "_id" doc = None
  /\ (exists s, lookup "id" doc = Some (DVal (PyStr s)))
  /\ Forall (fun kv => has_isoformat (snd kv) = false) doc.

(** X18: when the store answers, [list_appointments] returns one
    document for each stored one, in the same order, and each returned
    document has no [_id], has a text [id] and holds no value with
    [isoformat]. *)
Theorem list_appointments_ready_for_json
    (get_documents : string -> document -> Z -> result (list document))
    (limit : option Z) (docs : list document) :
  get_documents "appointment" []
                (match limit with Some n => n | None => 20 end) = Ok docs ->
  Forall (fun doc => NoDup (keys doc)) docs ->
  exists out,
    list_appointments get_documents limit = Respond out
    /\ List.length out = List.length docs
    /\ Forall ready_for_json out.
Proof.
  intros Hget Hdocs. unfold list_appointments. rewrite Hget. cbn.
  exists (map normalize docs).
  split; [reflexivity |]. split; [apply length_map |].
  apply Forall_map. apply Forall_impl with (2 := Hdocs).
  intros doc Hnd. unfold ready_for_json.
  destruct (normalize_id_field doc Hnd) as (Hno & Hid & Hnone).
  split; [exact Hno |]. split.
  - destruct (lookup "_id" doc) as [v |] eqn:Hv.
    + eexists. apply Hid. reflexivity.
    + eexists. apply Hnone. reflexivity.
  - apply normalize_no_isoformat_left. exact Hnd.
Qed.

Lemma list_appointments_ready_for_json_witness :
  exists out,
    list_appointments
      (listing_store [stored_appointment; stored_appointment]) None
    = Respond out
    /\ List.length out = 2%nat
    /\ Forall ready_for_json out.
Proof.
  apply (list_appointments_ready_for_json
           (listing_store [stored_appointment; stored_appointment]) None
           [stored_appointment; stored_appointment]).
  - reflexivity.
  - constructor; [exact stored_appointment_keys_unique |].
    constructor; [exact stored_appointment_keys_unique | constructor].
Defined.

(** X19: the four document endpoints treat a store failure alike: an
    exception [e] from the store becomes [HTTPException] with status 500
    and the whole of [str(e)] as detail, and nothing is returned. *)
Theorem store_failure_is_http_500
    (create_document : string -> model -> result string)
    (get_documents : string -> document -> Z -> result (list document))
    (e : PyException) :
  (forall p, create_document "appointment" (AnAppointment p) = Raise e ->
     create_appointment create_document p = HTTPException 500 (exc_str e))
  /\ (forall p, create_document "patient" (APatient p) = Raise e ->
        create_patient create_document p = HTTPException 500 (exc_str e))
  /\ (forall p, create_document "doctor" (ADoctor p) = Raise e ->
        create_doctor create_document p = HTTPException 500 (exc_str e))
  /\ (forall limit,
        get_documents "appointment" []
                      (match limit with Some n => n | None => 20 end)
        = Raise e ->
        list_appointments get_documents limit
        = HTTPException 500 (exc_str e)).
Proof.
  repeat split; intros p Hp;
    unfold create_appointment, create_patient, create_doctor,
      list_appointments; rewrite Hp; reflexivity.
Qed.

(** A store that refuses every write and every read with [e]. *)
Definition refusing_create (e : PyException)
    : string -> model -> result string :=
  fun _ _ => Raise e.

Definition refusing_find (e : PyException)
    : string -> document -> Z -> result (list document) :=
  fun _ _ _ => Raise e.

Lemma store_failure_is_http_500_witness :
  create_doctor (refusing_create timeout_error)
    (mkDoctor "Grace" "Hopper" "Cardiology" None None true)
  = HTTPException 500 (exc_str timeout_error)
  /\ list_appointments (refusing_find timeout_error) (Some 5)
     = HTTPException 500 (exc_str timeout_error).
Proof.
  destruct (store_failure_is_http_500 (refusing_create timeout_error)
              (refusing_find timeout_error) timeout_error)
    as (_ & _ & Hdoctor & Hlist).
  split; [apply Hdoctor | apply Hlist]; reflexivity.
Defined.
